(** * vite-plugin-turbo-reload: a shallow embedding of [src/index.ts]

    The plugin is glue between four services of the dev server: the path
    library, the glob matcher, the file watcher and the client channel.
    The services are not part of the repository; they appear here as
    section variables.  What the plugin itself does (normalising the
    patterns, the transform hook, the per-event handler and the wiring
    in [configureServer]) is translated definition by definition. *)

From Stdlib Require Import Bool List String Ascii ZArith Lia.
Import ListNotations.
Open Scope string_scope.

(** ** JavaScript strings *)

Definition nl : string := String "010"%char EmptyString.
Definition dq : string := String "034"%char EmptyString.

(** [String.prototype.includes]: [includes s search] is [s.includes(search)]. *)
Fixpoint includes (s search : string) : bool :=
  prefix search s ||
  match s with
  | EmptyString => false
  | String _ rest => includes rest search
  end.

(** The class [\s] of the regular expressions, on the ASCII range:
    tab, line feed, vertical tab, form feed, carriage return, space. *)
Definition is_space (c : ascii) : bool :=
  let n := nat_of_ascii c in
  (Nat.leb 9 n && Nat.leb n 13) || Nat.eqb n 32.

Definition is_newline (c : ascii) : bool := Nat.eqb (nat_of_ascii c) 10.

(** [s.replace(/(\n|\s\s)+/gm, "")].  Nothing follows the group in the
    pattern, so at every position the engine takes [\n] if it can, else
    two blanks if it can, and otherwise the character is kept; whether
    a deleted piece continues the current match or opens the next one
    makes no difference to the result. *)
Fixpoint replace_blank_runs (s : string) : string :=
  match s with
  | EmptyString => EmptyString
  | String c rest =>
      if is_newline c then replace_blank_runs rest
      else
        match rest with
        | EmptyString => String c EmptyString
        | String d rest' =>
            if is_space c && is_space d then replace_blank_runs rest'
            else String c (replace_blank_runs rest)
        end
  end.

(** Texts of ASCII characters only.  Below U+0080 the class [\s] has
    no member besides the six of [is_space], so on these texts
    [replace_blank_runs] is the replacement of the regular expression;
    the class has further members above (U+00A0, U+2028, U+FEFF and
    others), which [is_space] does not know. *)
Definition is_ascii (c : ascii) : bool := Nat.ltb (nat_of_ascii c) 128.

Fixpoint is_ascii_text (s : string) : bool :=
  match s with
  | EmptyString => true
  | String c rest => is_ascii c && is_ascii_text rest
  end.

(** Whether a string holds a line feed, and whether it holds two blanks
    side by side: the two things the replacement above removes. *)
Fixpoint has_newline (s : string) : bool :=
  match s with
  | EmptyString => false
  | String c rest => is_newline c || has_newline rest
  end.

Fixpoint blank_pair (s : string) : bool :=
  match s with
  | EmptyString => false
  | String c rest =>
      match rest with
      | EmptyString => false
      | String d _ => (is_space c && is_space d) || blank_pair rest
      end
  end.

(** JavaScript truthiness of the values the plugin tests. *)
Definition truthy_bool (b : option bool) : bool :=
  match b with Some true => true | _ => false end.

Definition truthy_string (s : option string) : bool :=
  match s with
  | Some EmptyString => false
  | Some _ => true
  | None => false
  end.

(** A destructuring default, [{ x = d } = obj]: the default replaces
    [undefined] only. *)
Definition with_default {A : Type} (d : A) (o : option A) : A :=
  match o with Some a => a | None => d end.

(** ** Data model *)

(** [interface Config]: every key is optional. *)
Module Config.
Record t : Type := mk {
  always : option bool;
  delay : option Z;
  log : option bool;
  root : option string;
  turbo : option bool
}.
(** [config = {}] *)
Definition empty : t := mk None None None None None.
End Config.

(** [paths: string | string[]] *)
Inductive Paths : Type :=
| OnePath (path : string)
| PathArray (paths : list string).

(** The two client messages the plugin builds. *)
Inductive HMRPayload : Type :=
| FullReload (path : string)                     (* { type: 'full-reload', path } *)
| Custom (event : string) (data : option string). (* { type: 'custom', event, data? } *)

(** The second argument of [logger.info]. *)
Record LogOptions : Type := { clear : bool; timestamp : bool }.

Set Warnings "-register-all".

(** Calls into the host made while a handler runs, in program order.  A
    timer callback is the list of calls it will make when it runs. *)
Inductive HostCall : Type :=
| WsSend (payload : HMRPayload)
| LoggerInfo (msg : string) (options : LogOptions)
| SetTimeout (callback : list HostCall) (ms : Z).

(** The second argument of [transform]: [options?: { ssr?: boolean }]. *)
Record TransformOptions : Type := { ssr : option bool }.

(** ** The transform hook *)

Definition metaHotTemplate : string :=
  nl ++
  "        if (import.meta.hot) {" ++ nl ++
  "          import.meta.hot.on(" ++ dq ++ "turbo-refresh" ++ dq ++ ", (data) => {" ++ nl ++
  "            console.log(" ++ dq ++ "Run <turbo-stream action=refresh> via vite-plugin-full-reload" ++ dq ++ ");" ++ nl ++
  "            Turbo.renderStreamMessage('<turbo-stream action=" ++ dq ++ "refresh" ++ dq ++ "></turbo-stream>');" ++ nl ++
  "          })" ++ nl ++
  "        }" ++ nl ++
  "      ".

Definition metaHotFooter : string := replace_blank_runs metaHotTemplate.

Section Transform.
(** [process.env.VITEST] *)
Variable VITEST : option string.
Variable config : Config.t.

(** [(options == null ? void 0 : options.ssr)] *)
Definition options_ssr (options : option TransformOptions) : option bool :=
  match options with
  | None => None
  | Some o => ssr o
  end.

Definition transform (code id : string) (options : option TransformOptions)
  : option string :=
  if truthy_bool (options_ssr options) && negb (truthy_string VITEST) then None
  else if truthy_bool (Config.turbo config) && includes id "hotwired_turbo-rails.js"
  then Some (code ++ nl ++ metaHotFooter)
  else None.
End Transform.


(** ** Test doubles for the host

    Small stand-ins for the services of the host, used to run the
    plugin on concrete inputs: paths are joined with a slash, globs
    are matched literally, colours are off. *)
Module Fake.
Definition resolve (root path : string) : string :=
  if prefix "/" path then path else root ++ "/" ++ path.

Definition relative (from to : string) : string :=
  if prefix (from ++ "/") to
  then substring (S (String.length from)) (String.length to) to
  else to.

Definition normalizePath (id : string) : string := id.
Definition green (s : string) : string := s.
Definition dim (s : string) : string := s.
Definition isMatch (glob input : string) : bool := String.eqb glob input.

Definition cwd : string := "/cwd".

(** Doubles that keep the contracts of the path functions on every
    input: a path is absolute when it starts with a slash, a relative
    base is taken from the working directory, and normalising turns
    backslashes into slashes. *)
Definition isAbsolute (path : string) : bool := prefix "/" path.

Definition resolve_cwd (from to : string) : string :=
  if prefix "/" to then to
  else if prefix "/" from then from ++ "/" ++ to
  else "/cwd/" ++ from ++ "/" ++ to.

Fixpoint slash (id : string) : string :=
  match id with
  | EmptyString => EmptyString
  | String c rest =>
      String (if Ascii.eqb c "092"%char then "047"%char else c) (slash rest)
  end.
Definition templates : Paths := PathArray ["templates/index.html"].
(** Root [/app], the rest by default. *)
Definition app_config : Config.t := Config.mk None None None (Some "/app") None.
(** Root [/app], the triggering path named, 200 ms, no log. *)
Definition quiet_config : Config.t :=
  Config.mk (Some false) (Some 200%Z) (Some false) (Some "/app") None.
(** Root [/app], turbo on, 200 ms. *)
Definition turbo_config : Config.t :=
  Config.mk None (Some 200%Z) None (Some "/app") (Some true).
(** Root [/app], a delay of 2^31 ms, one more than a timer honours. *)
Definition overflow_config : Config.t :=
  Config.mk None (Some 2147483648%Z) None (Some "/app") None.
End Fake.

(** ** Pattern normalisation, the handler and the event loop *)

Section Host.
(** *** Services of the host *)

(** [process.cwd()] *)
Variable cwd : string.
(** [resolve] and [relative] of the [path] module, [normalizePath] of
    vite, and the two formatters of picocolors. *)
Variable resolve : string -> string -> string.
Variable relative : string -> string -> string.
Variable normalizePath : string -> string.
Variable green dim : string -> string.
(** [isMatch glob input] is [picomatch(glob)(input)] for one glob. *)
Variable isMatch : string -> string -> bool.

(** Modelled from the spec: the matcher built from a list of globs,
    [picomatch(files)], which is a dependency and not in the
    repository.  The spec (4.1, step 3) has it accept a path iff the
    path satisfies at least one pattern, the patterns being tried in
    order. *)
Definition picomatch (globs : list string) : string -> bool :=
  fun input => existsb (fun glob => isMatch glob input) globs.

(** [Array.isArray(path) ? path : [path]] *)
Definition as_array (path : Paths) : list string :=
  match path with
  | OnePath p => [p]
  | PathArray ps => ps
  end.

Definition normalizePaths (root : string) (path : Paths) : list string :=
  map normalizePath (map (fun path => resolve root path) (as_array path)).

(** *** What a run of a handler asked of the host *)

(** The timers armed, as (callback, delay) in program order. *)
Definition timers_of (calls : list HostCall) : list (list HostCall * Z) :=
  flat_map (fun c => match c with SetTimeout cb ms => [(cb, ms)] | _ => [] end) calls.

(** The lines logged during the run itself. *)
Definition logs_of (calls : list HostCall) : list (string * LogOptions) :=
  flat_map (fun c => match c with LoggerInfo m o => [(m, o)] | _ => [] end) calls.

(** The messages sent during the run itself, outside any timer. *)
Definition sends_of (calls : list HostCall) : list HMRPayload :=
  flat_map (fun c => match c with WsSend m => [m] | _ => [] end) calls.

(** *** The watcher *)

(** The watcher as the plugin sees it: the extra targets registered
    with [add], and the listeners registered with [on], by event
    name. *)
Record FSWatcher : Type := {
  watched : list string;
  listeners : list (string * (string -> list HostCall))
}.

Definition fresh_watcher : FSWatcher := {| watched := []; listeners := [] |}.

Definition watcher_add (targets : list string) (w : FSWatcher) : FSWatcher :=
  {| watched := watched w ++ targets; listeners := listeners w |}.

Definition watcher_on (event : string) (listener : string -> list HostCall)
           (w : FSWatcher) : FSWatcher :=
  {| watched := watched w; listeners := listeners w ++ [(event, listener)] |}.

(** The watcher emits [event] with one path: the listeners of that
    event run in registration order. *)
Definition emit (w : FSWatcher) (event path : string) : list HostCall :=
  flat_map (fun l => if String.eqb (fst l) event then snd l path else [])
           (listeners w).

(** *** The event loop, on a virtual clock in milliseconds *)

Record Timer : Type := { callback : list HostCall; ms : Z; armed : Z }.

(** A message on the client channel: when it went out, and when the
    run that caused it began (for a timer, when the timer was armed). *)
Record Delivery : Type := { sent_at : Z; caused_at : Z; payload : HMRPayload }.

Record LogLine : Type := {
  logged_at : Z; detected_at : Z; line : string; line_options : LogOptions
}.

Record Loop : Type := {
  clock : Z;
  pending : list Timer;
  outbox : list Delivery;
  console : list LogLine
}.

Definition boot : Loop := {| clock := 0; pending := []; outbox := []; console := [] |}.

(** One host call at the current clock, in a run that began at [origin]. *)
Definition perform (origin : Z) (l : Loop) (c : HostCall) : Loop :=
  match c with
  | WsSend m =>
      {| clock := clock l; pending := pending l;
         outbox := outbox l ++ [{| sent_at := clock l; caused_at := origin; payload := m |}];
         console := console l |}
  | LoggerInfo msg o =>
      {| clock := clock l; pending := pending l; outbox := outbox l;
         console := console l ++ [{| logged_at := clock l; detected_at := origin;
                                     line := msg; line_options := o |}] |}
  | SetTimeout cb d =>
      {| clock := clock l;
         pending := pending l ++ [{| callback := cb; ms := d; armed := clock l |}];
         outbox := outbox l; console := console l |}
  end.

Definition run (origin : Z) (calls : list HostCall) (l : Loop) : Loop :=
  fold_left (perform origin) calls l.

Fixpoint remove_nth {A : Type} (n : nat) (xs : list A) : list A :=
  match n, xs with
  | _, [] => []
  | O, _ :: rest => rest
  | S k, x :: rest => x :: remove_nth k rest
  end.

(** The timers of Node: [TIMEOUT_MAX] is the largest delay a timer
    honours, and a timer armed with a larger one waits 1 ms instead.  A
    delay below 1 waits 1 ms too, which is no earlier than what was
    asked, so the delay itself stays the earliest moment of the run. *)
Definition TIMEOUT_MAX : Z := 2147483647.

Definition timer_wait (ms : Z) : Z :=
  if (TIMEOUT_MAX <? ms)%Z then 1%Z else ms.

(** What can happen next: time passes, the watcher reports a file, or
    the host runs a pending timer.  A timer never runs before its
    wait has passed. *)
Inductive Occurrence : Type :=
| Tick (dt : Z)
| Emit (event path : string)
| Fire (n : nat).

Definition exec (w : FSWatcher) (l : Loop) (o : Occurrence) : Loop :=
  match o with
  | Tick dt =>
      {| clock := clock l + Z.max 0 dt; pending := pending l;
         outbox := outbox l; console := console l |}
  | Emit event path => run (clock l) (emit w event path) l
  | Fire n =>
      match nth_error (pending l) n with
      | Some t =>
          if (armed t + timer_wait (ms t) <=? clock l)%Z then
            run (armed t) (callback t)
                {| clock := clock l; pending := remove_nth n (pending l);
                   outbox := outbox l; console := console l |}
          else l
      | None => l
      end
  end.

Definition play (w : FSWatcher) (history : list Occurrence) (l : Loop) : Loop :=
  fold_left (exec w) history l.

(** What a step added, with the clock readings dropped. *)
Definition new_timers (before after : Loop) : list (list HostCall * Z) :=
  map (fun t => (callback t, ms t)) (skipn (List.length (pending before)) (pending after)).

Definition new_lines (before after : Loop) : list (string * LogOptions) :=
  map (fun x => (line x, line_options x)) (skipn (List.length (console before)) (console after)).

Definition new_deliveries (before after : Loop) : list HMRPayload :=
  map payload (skipn (List.length (outbox before)) (outbox after)).

(** *** The order of the host calls *)

(** What went out to the client and to the console, one entry per host
    call. *)
Inductive Effect : Type :=
| Sent (d : Delivery)
| Logged (x : LogLine).

(** The effects of a run made at clock reading [now], in the order of
    its calls.  Arming a timer has no effect of its own. *)
Definition effects_of (origin now : Z) (calls : list HostCall) : list Effect :=
  flat_map (fun c =>
              match c with
              | WsSend m =>
                  [Sent {| sent_at := now; caused_at := origin; payload := m |}]
              | LoggerInfo msg o =>
                  [Logged {| logged_at := now; detected_at := origin;
                             line := msg; line_options := o |}]
              | SetTimeout _ _ => []
              end) calls.

(** The effects of one occurrence: those of the run that [exec] makes
    for it. *)
Definition step_effects (w : FSWatcher) (l : Loop) (o : Occurrence) : list Effect :=
  match o with
  | Tick _ => []
  | Emit event path => effects_of (clock l) (clock l) (emit w event path)
  | Fire n =>
      match nth_error (pending l) n with
      | Some t =>
          if (armed t + timer_wait (ms t) <=? clock l)%Z
          then effects_of (armed t) (clock l) (callback t)
          else []
      | None => []
      end
  end.

(** The effects of a history, first to last. *)
Fixpoint transcript (w : FSWatcher) (history : list Occurrence) (l : Loop)
  : list Effect :=
  match history with
  | [] => []
  | o :: rest => (step_effects w l o ++ transcript w rest (exec w l o))%list
  end.

Definition deliveries_of (effects : list Effect) : list Delivery :=
  flat_map (fun e => match e with Sent d => [d] | Logged _ => [] end) effects.

Definition lines_of (effects : list Effect) : list LogLine :=
  flat_map (fun e => match e with Logged x => [x] | Sent _ => [] end) effects.

(** Read from first to last: every message sent was caused by an event
    for which a line had been logged before; [seen] holds the lines
    logged so far. *)
Fixpoint announced_in_order (seen : list LogLine) (effects : list Effect) : Prop :=
  match effects with
  | [] => True
  | Logged x :: rest => announced_in_order (x :: seen) rest
  | Sent d :: rest =>
      (exists x, In x seen /\ detected_at x = caused_at d)
      /\ announced_in_order seen rest
  end.

(** *** The plugin instance: [paths] and [config] of the factory *)

Section Instance.
Variable paths : Paths.
Variable config : Config.t.

(** [const { root = process.cwd(), log = true, always = true,
            delay = 0, turbo = false } = config] *)
Definition root : string := with_default cwd (Config.root config).
Definition log : bool := with_default true (Config.log config).
Definition always : bool := with_default true (Config.always config).
Definition delay : Z := with_default 0%Z (Config.delay config).
Definition turbo : bool := with_default false (Config.turbo config).

Definition files : list string := normalizePaths root paths.
Definition shouldReload : string -> bool := picomatch files.

Definition checkReload (path : string) : list HostCall :=
  if shouldReload path then
    (if turbo then
       [SetTimeout [WsSend (Custom "turbo-refresh" None)] delay]
     else
       [SetTimeout [WsSend (FullReload (if always then "*" else path))] delay])
    ++
    (if log then
       [LoggerInfo (green "full reload" ++ " " ++ dim (relative root path))
                   {| clear := true; timestamp := true |}]
     else [])
  else [].

Definition configureServer (watcher : FSWatcher) : FSWatcher :=
  let watcher := watcher_add files watcher in
  let watcher := watcher_on "add" checkReload watcher in
  watcher_on "change" checkReload watcher.

(** The dev server of the proofs: the plugin is the only listener. *)
Definition server : FSWatcher := configureServer fresh_watcher.

(** *** What holds of the loop at all times *)

(** The messages the plugin can put on the channel. *)
Definition plugin_message (m : HMRPayload) : Prop :=
  if turbo then m = Custom "turbo-refresh" None
  else exists path, m = FullReload (if always then "*" else path).

Definition timer_ok (t : Timer) : Prop :=
  ms t = delay /\ exists m, callback t = [WsSend m] /\ plugin_message m.

Definition delivery_ok (d : Delivery) : Prop :=
  (caused_at d + timer_wait delay <= sent_at d)%Z /\ plugin_message (payload d).

Definition line_ok (x : LogLine) : Prop := logged_at x = detected_at x.

Definition loop_ok (l : Loop) : Prop :=
  Forall timer_ok (pending l) /\ Forall delivery_ok (outbox l) /\
  Forall line_ok (console l).

(** Whether an occurrence is a watched event for an accepted path, and
    how many of them a history holds. *)
Definition triggered (o : Occurrence) : bool :=
  match o with
  | Emit event path =>
      (String.eqb event "add" || String.eqb event "change") && shouldReload path
  | _ => false
  end.

Definition triggers (history : list Occurrence) : nat :=
  List.length (filter triggered history).


(** *** Auxiliary facts *)

(** The host calls of a run are performed one after the other; the
    facts about a run go by induction on the calls, the loop state
    generalised. *)
Ltac run_induction calls :=
  let c := fresh "c" in
  let IH := fresh "IH" in
  let l := fresh "l" in
  induction calls as [|c calls IH]; intro l;
  [ cbn; rewrite ?app_nil_r; reflexivity
  | cbn [run fold_left];
    match goal with
    | |- context [fold_left (perform ?o) calls ?l'] =>
        change (fold_left (perform o) calls l') with (run o calls l')
    end;
    rewrite IH; destruct c; cbn; rewrite <- ?app_assoc; reflexivity ].

Lemma run_clock (origin : Z) (calls : list HostCall) :
  forall l, clock (run origin calls l) = clock l.
Proof. run_induction calls. Qed.

(** A run only appends: to the pending timers, to the outbox and to
    the console, each at the clock reading of the run. *)
Lemma run_pending (origin : Z) (calls : list HostCall) :
  forall l,
    pending (run origin calls l) =
    (pending l ++ map (fun t => {| callback := fst t; ms := snd t; armed := clock l |})
                      (timers_of calls))%list.
Proof. run_induction calls. Qed.

Lemma run_outbox (origin : Z) (calls : list HostCall) :
  forall l,
    outbox (run origin calls l) =
    (outbox l ++ map (fun m => {| sent_at := clock l; caused_at := origin; payload := m |})
                     (sends_of calls))%list.
Proof. run_induction calls. Qed.

Lemma run_console (origin : Z) (calls : list HostCall) :
  forall l,
    console (run origin calls l) =
    (console l ++ map (fun x => {| logged_at := clock l; detected_at := origin;
                                   line := fst x; line_options := snd x |})
                      (logs_of calls))%list.
Proof. run_induction calls. Qed.

Lemma skipn_length_app {A : Type} (xs ys : list A) :
  skipn (List.length xs) (xs ++ ys)%list = ys.
Proof. induction xs as [|x xs IH]; [reflexivity | exact IH]. Qed.

(** The plugin is the only listener of the server, once for [add]
    and once for [change]. *)
Lemma emit_server (event path : string) :
  emit server event path =
  if String.eqb event "add" || String.eqb event "change"
  then checkReload path else [].
Proof.
  unfold emit, server, configureServer, watcher_on, watcher_add, fresh_watcher.
  cbn [listeners app flat_map fst snd].
  rewrite app_nil_r.
  rewrite (String.eqb_sym "add" event), (String.eqb_sym "change" event).
  destruct (String.eqb_spec event "add") as [->|Hadd]; cbn.
  - now rewrite app_nil_r.
  - destruct (String.eqb event "change"); reflexivity.
Qed.

Lemma emit_server_watched (event path : string) :
  event = "add" \/ event = "change" ->
  emit server event path = checkReload path.
Proof.
  intros [-> | ->]; rewrite emit_server; reflexivity.
Qed.

Lemma emit_rejected (event path : string) :
  shouldReload path = false -> emit server event path = [].
Proof.
  intro Hreject. rewrite emit_server. unfold checkReload. rewrite Hreject.
  now destruct (_ || _).
Qed.

(** The three observations of one run of the handler. *)
Lemma checkReload_timers (path : string) :
  timers_of (checkReload path) =
  if shouldReload path then
    [([WsSend (if turbo then Custom "turbo-refresh" None
               else FullReload (if always then "*" else path))], delay)]
  else [].
Proof.
  unfold checkReload.
  destruct (shouldReload path), turbo, log; reflexivity.
Qed.

Lemma checkReload_logs (path : string) :
  logs_of (checkReload path) =
  if shouldReload path && log then
    [(green "full reload" ++ " " ++ dim (relative root path),
      {| clear := true; timestamp := true |})]
  else [].
Proof.
  unfold checkReload.
  destruct (shouldReload path), turbo, log; reflexivity.
Qed.

Lemma checkReload_sends (path : string) : sends_of (checkReload path) = [].
Proof.
  unfold checkReload.
  destruct (shouldReload path), turbo, log; reflexivity.
Qed.

Lemma Forall_remove_nth {A : Type} (P : A -> Prop) (n : nat) :
  forall xs, Forall P xs -> Forall P (remove_nth n xs).
Proof.
  induction n as [|n IH]; intros xs H; destruct H as [|x xs Hx Hxs]; cbn;
    auto using Forall_nil, Forall_cons.
Qed.

Lemma loop_ok_boot : loop_ok boot.
Proof. repeat split; constructor. Qed.

Lemma loop_ok_checkReload (path : string) (l : Loop) :
  loop_ok l -> loop_ok (run (clock l) (checkReload path) l).
Proof.
  intros (Ht & Hd & Hl). unfold loop_ok.
  rewrite run_pending, run_outbox, run_console.
  rewrite checkReload_timers, checkReload_sends, checkReload_logs.
  cbn [map]. rewrite app_nil_r.
  repeat split; [ | exact Hd | ].
  - apply Forall_app; split; [exact Ht|].
    destruct (shouldReload path); cbn [map]; constructor; [|constructor].
    split; [reflexivity|]. cbn [callback fst].
    eexists; split; [reflexivity|].
    unfold plugin_message. destruct turbo; [reflexivity | now exists path].
  - apply Forall_app; split; [exact Hl|].
    destruct (shouldReload path && log); cbn [map]; constructor; [|constructor].
    reflexivity.
Qed.

Lemma loop_ok_exec (l : Loop) (o : Occurrence) :
  loop_ok l -> loop_ok (exec server l o).
Proof.
  intros Hok. destruct o as [dt | event path | n]; cbn [exec].
  - exact Hok.
  - rewrite emit_server.
    destruct (String.eqb event "add" || String.eqb event "change").
    + now apply loop_ok_checkReload.
    + exact Hok.
  - destruct (nth_error (pending l) n) as [t|] eqn:Hn; [|exact Hok].
    destruct (Z.leb_spec (armed t + timer_wait (ms t)) (clock l)) as [Hdue|_];
      [|exact Hok].
    destruct Hok as (Ht & Hd & Hl).
    pose proof (proj1 (Forall_forall _ _) Ht t (nth_error_In _ _ Hn))
      as (Hms & m & Hcb & Hm).
    rewrite Hms in Hdue. rewrite Hcb. cbn. repeat split; cbn.
    + now apply Forall_remove_nth.
    + apply Forall_app; split; [exact Hd|].
      constructor; [|constructor]. split; cbn; [lia | exact Hm].
    + exact Hl.
Qed.

Lemma loop_ok_play (history : list Occurrence) :
  forall l, loop_ok l -> loop_ok (play server history l).
Proof.
  induction history as [|o history IH]; intros l Hok; [exact Hok|].
  cbn [play fold_left]. apply IH, loop_ok_exec, Hok.
Qed.

Lemma prefix_nil (s : string) : prefix EmptyString s = true.
Proof. destruct s; reflexivity. Qed.

Lemma prefix_app (s : string) :
  forall a b, prefix s a = true -> prefix s (a ++ b) = true.
Proof.
  induction s as [|c s IH]; intros a b H; [apply prefix_nil|].
  destruct a as [|d a]; cbn in *; [discriminate|].
  destruct (ascii_dec c d); [now apply IH | discriminate].
Qed.

Lemma includes_app_l (s a b : string) :
  includes a s = true -> includes (a ++ b) s = true.
Proof.
  induction a as [|c a IH]; cbn [includes append]; intro H.
  - rewrite orb_false_r in H. destruct s; [|discriminate].
    destruct b; reflexivity.
  - apply orb_true_iff in H as [H|H].
    + change (String c (a ++ b)) with (String c a ++ b).
      now rewrite (prefix_app _ _ b H).
    + rewrite (IH H). apply orb_true_r.
Qed.

Lemma includes_app_r (s a b : string) :
  includes b s = true -> includes (a ++ b) s = true.
Proof.
  intro H. induction a as [|c a IH]; cbn [includes append]; [exact H|].
  rewrite IH. apply orb_true_r.
Qed.

(** *** The claims about the handler *)

(** C1.  Turbo off, a watched event ([add] or [change]) for a path
    the bound predicate accepts: the handler arms exactly one timer,
    whose callback sends one full-reload message, and sends nothing
    itself.  The path field of the message is the wildcard when
    [always] is true or omitted, and the triggering path when
    [always] is false. *)
Theorem full_reload_path_field (event path : string) :
  event = "add" \/ event = "change" ->
  shouldReload path = true ->
  Config.turbo config <> Some true ->
  timers_of (emit server event path) =
    [([WsSend (FullReload match Config.always config with
                          | Some false => path
                          | _ => "*"
                          end)],
      with_default 0%Z (Config.delay config))]
  /\ sends_of (emit server event path) = [].
Proof.
  intros Hev Hmatch Hturbo.
  rewrite (emit_server_watched _ _ Hev), checkReload_timers, checkReload_sends, Hmatch.
  split; [|reflexivity].
  unfold turbo, always, delay.
  destruct (Config.turbo config) as [[|]|]; [contradiction| |];
    destruct (Config.always config) as [[|]|]; reflexivity.
Qed.

(** C2.  Turbo on: every triggered event arms one timer whose
    callback sends the custom message with event [turbo-refresh] and
    no data, whatever [always] and the path are; and over any
    history of the loop, every message that went out on the channel
    is that custom message, so no full-reload message is ever sent. *)
Theorem turbo_sends_custom_refresh :
  Config.turbo config = Some true ->
  (forall event path,
      event = "add" \/ event = "change" ->
      shouldReload path = true ->
      timers_of (emit server event path) =
        [([WsSend (Custom "turbo-refresh" None)],
          with_default 0%Z (Config.delay config))]
      /\ sends_of (emit server event path) = [])
  /\ (forall history,
        Forall (fun d => payload d = Custom "turbo-refresh" None)
               (outbox (play server history boot))).
Proof.
  intro Hturbo. split.
  - intros event path Hev Hmatch.
    rewrite (emit_server_watched _ _ Hev), checkReload_timers, checkReload_sends, Hmatch.
    unfold turbo. rewrite Hturbo. split; reflexivity.
  - intro history.
    destruct (loop_ok_play history boot loop_ok_boot) as (_ & Hd & _).
    eapply Forall_impl; [|exact Hd].
    intros d [_ Hm]. unfold plugin_message, turbo in Hm.
    now rewrite Hturbo in Hm.
Qed.

(** C4.  An event whose path the bound predicate rejects: the handler
    makes no host call at all, so the event leaves the loop as it
    was: no timer, no message, no log line.  The handler is a total
    function of the path; there is no error case. *)
Theorem rejected_path_no_action (event path : string) :
  shouldReload path = false ->
  checkReload path = []
  /\ emit server event path = []
  /\ forall l, exec server l (Emit event path) = l.
Proof.
  intro Hreject.
  assert (Hcheck : checkReload path = [])
    by (unfold checkReload; now rewrite Hreject).
  pose proof (emit_rejected event path Hreject) as Hemit.
  repeat split; trivial.
  intro l. cbn [exec]. now rewrite Hemit.
Qed.

(** C5 (amended).  A triggered event, handled at any state of the
    loop: the handler arms one timer, at the clock reading of the
    detection and with exactly the configured delay (0 when omitted);
    no message goes out during the handling itself, also when the
    delay is 0; and the log line, when logging is on, is written at
    the clock reading of the detection.  When the configured delay is
    at most [TIMEOUT_MAX], then over any history of the loop every
    message went out no earlier than the delay after the event that
    caused it; and for every delay, every log line was written at its
    detection. *)
Theorem send_delayed_log_immediate (event path : string) :
  event = "add" \/ event = "change" ->
  shouldReload path = true ->
  (forall l,
      let l' := exec server l (Emit event path) in
      clock l' = clock l
      /\ skipn (List.length (pending l)) (pending l') =
         [{| callback :=
               [WsSend (if turbo then Custom "turbo-refresh" None
                        else FullReload (if always then "*" else path))];
             ms := with_default 0%Z (Config.delay config);
             armed := clock l |}]
      /\ new_deliveries l l' = []
      /\ Forall (fun x => logged_at x = clock l)
                (skipn (List.length (console l)) (console l'))
      /\ List.length (new_lines l l') = if log then 1 else 0)
  /\ (forall history,
        Forall (fun x => logged_at x = detected_at x)
               (console (play server history boot)))
  /\ ((with_default 0 (Config.delay config) <= TIMEOUT_MAX)%Z ->
      forall history,
        Forall (fun d => (caused_at d + with_default 0 (Config.delay config)
                          <= sent_at d)%Z)
               (outbox (play server history boot))).
Proof.
  intros Hev Hmatch. split; [|split].
  - intro l. cbn zeta. cbn [exec].
    rewrite (emit_server_watched _ _ Hev).
    unfold new_deliveries, new_lines.
    rewrite run_clock, run_pending, run_outbox, run_console.
    rewrite !skipn_length_app.
    rewrite checkReload_timers, checkReload_sends, checkReload_logs, Hmatch.
    cbn [andb map fst snd]. repeat split.
    + destruct log; cbn [map]; repeat constructor.
    + now destruct log.
  - intro history.
    now destruct (loop_ok_play history boot loop_ok_boot) as (_ & _ & Hl).
  - intros Hmax history.
    destruct (loop_ok_play history boot loop_ok_boot) as (_ & Hd & _).
    eapply Forall_impl; [|exact Hd].
    intros d [Hlate _]. fold delay in Hmax |- *.
    unfold timer_wait in Hlate.
    destruct (Z.ltb_spec TIMEOUT_MAX delay); [lia | exact Hlate].
Qed.

(** C6.  A triggered event logs one line when [log] is true or
    omitted, and none when it is false; either way the handler arms
    the one timer whose callback sends the client message (the custom
    refresh with turbo on, the full reload otherwise), with the
    configured delay.  The line is the label
    [full reload] through the green formatter, a space, and the path
    relative to the root through the dim formatter, and the logger
    is asked to clear and to stamp the time.  The line does not
    depend on [turbo].  Where the formatters keep their text, the
    line contains the label and the relative path. *)
Theorem log_line_on_trigger (event path : string) :
  event = "add" \/ event = "change" ->
  shouldReload path = true ->
  includes (green "full reload") "full reload" = true ->
  includes (dim (relative root path)) (relative root path) = true ->
  let line := green "full reload" ++ " " ++ dim (relative root path) in
  logs_of (emit server event path) =
    match Config.log config with
    | Some false => []
    | _ => [(line, {| clear := true; timestamp := true |})]
    end
  /\ includes line "full reload" = true
  /\ includes line (relative root path) = true
  /\ timers_of (emit server event path) =
     [([WsSend (if turbo then Custom "turbo-refresh" None
                else FullReload (if always then "*" else path))],
       with_default 0%Z (Config.delay config))].
Proof.
  intros Hev Hmatch Hgreen Hdim line.
  rewrite (emit_server_watched _ _ Hev), checkReload_timers, checkReload_logs, Hmatch.
  repeat split.
  - unfold log. destruct (Config.log config) as [[|]|]; reflexivity.
  - unfold line. now apply includes_app_l.
  - unfold line. now apply includes_app_r, includes_app_r.
Qed.

(** C9.  The handler keeps no state.  Take any two histories of the
    loop, from any two starting states, and let the same event
    arrive after each: the timers armed, the lines logged and the
    messages sent by the handling are the same (clock readings
    apart), and equal to what the handler asks for on that path
    alone. *)
Theorem handler_stateless (h1 h2 : list Occurrence) (s1 s2 : Loop)
        (event path : string) :
  let l1 := play server h1 s1 in
  let l2 := play server h2 s2 in
  let l1' := exec server l1 (Emit event path) in
  let l2' := exec server l2 (Emit event path) in
  new_timers l1 l1' = new_timers l2 l2'
  /\ new_lines l1 l1' = new_lines l2 l2'
  /\ new_deliveries l1 l1' = new_deliveries l2 l2'
  /\ new_timers l1 l1' = timers_of (emit server event path)
  /\ new_lines l1 l1' = logs_of (emit server event path)
  /\ new_deliveries l1 l1' = sends_of (emit server event path).
Proof.
  cbn zeta.
  assert (H : forall l,
             let l' := exec server l (Emit event path) in
             new_timers l l' = timers_of (emit server event path)
             /\ new_lines l l' = logs_of (emit server event path)
             /\ new_deliveries l l' = sends_of (emit server event path)).
  { intro l. cbn zeta. cbn [exec].
    unfold new_timers, new_lines, new_deliveries.
    rewrite run_pending, run_outbox, run_console, !skipn_length_app.
    rewrite !map_map. cbn [callback ms line line_options payload].
    repeat split.
    - rewrite <- (map_id (timers_of _)) at 2.
      apply map_ext. now intros [cb d].
    - rewrite <- (map_id (logs_of _)) at 2.
      apply map_ext. now intros [m o].
    - apply map_id. }
  destruct (H (play server h1 s1)) as (T1 & L1 & D1).
  destruct (H (play server h2 s2)) as (T2 & L2 & D2).
  repeat split; congruence.
Qed.

(** *** Further properties of the handler and of the loop *)

Lemma emit_configureServer (w : FSWatcher) (event path : string) :
  emit (configureServer w) event path =
  (emit w event path ++
   (if String.eqb event "add" || String.eqb event "change"
    then checkReload path else []))%list.
Proof.
  unfold emit, configureServer, watcher_on, watcher_add.
  cbn [listeners]. rewrite <- app_assoc, flat_map_app. f_equal.
  cbn [app flat_map fst snd]. rewrite app_nil_r.
  rewrite (String.eqb_sym "add" event), (String.eqb_sym "change" event).
  destruct (String.eqb_spec event "add") as [->|Hadd]; cbn.
  - now rewrite app_nil_r.
  - destruct (String.eqb event "change"); reflexivity.
Qed.

(** X4.  [configureServer] on a watcher that other plugins already
    use: the targets and the listeners already registered are kept,
    the pattern set is added to the targets, and on every event the
    calls of the earlier listeners come first and unchanged, followed
    by those of [checkReload] when the event is [add] or [change] and
    by nothing for any other event. *)
Theorem configureServer_extends (w : FSWatcher) (event path : string) :
  watched (configureServer w) = (watched w ++ files)%list
  /\ emit (configureServer w) event path =
     (emit w event path ++
      (if String.eqb event "add" || String.eqb event "change"
       then checkReload path else []))%list.
Proof.
  split; [reflexivity | apply emit_configureServer].
Qed.

Lemma shouldReload_exists (path : string) :
  shouldReload path = true <->
  exists pattern,
    In pattern (as_array paths)
    /\ isMatch (normalizePath (resolve root pattern)) path = true.
Proof.
  unfold shouldReload, picomatch, files, normalizePaths.
  rewrite existsb_exists, map_map. split.
  - intros (glob & Hin & Hm). apply in_map_iff in Hin as (p & <- & Hp).
    now exists p.
  - intros (p & Hp & Hm). eexists. split; [|exact Hm].
    apply in_map_iff. now exists p.
Qed.

Lemma length_remove_nth {A : Type} (n : nat) :
  forall (xs : list A) (x : A),
    nth_error xs n = Some x -> S (List.length (remove_nth n xs)) = List.length xs.
Proof.
  induction n as [|n IH]; intros [|y xs] x H; cbn in *; try discriminate.
  - reflexivity.
  - f_equal. eapply IH, H.
Qed.

Lemma exec_triggered (l : Loop) (o : Occurrence) :
  triggered o = true ->
  exists path,
    exec server l o = run (clock l) (checkReload path) l /\ shouldReload path = true.
Proof.
  destruct o as [dt | event path | n]; cbn [triggered]; try discriminate.
  intro H. apply andb_true_iff in H as [Hev Hm].
  exists path. split; [|exact Hm]. cbn [exec]. now rewrite emit_server, Hev.
Qed.

(** One step of the loop: a triggered event adds one timer and, when
    logging is on, one line; a due timer moves from the pending timers
    to the outbox; nothing else changes the counts. *)
Lemma exec_counts (l : Loop) (o : Occurrence) :
  loop_ok l ->
  let l' := exec server l o in
  List.length (pending l') + List.length (outbox l') =
    List.length (pending l) + List.length (outbox l) + (if triggered o then 1 else 0)
  /\ List.length (console l') =
     List.length (console l) + (if triggered o && log then 1 else 0).
Proof.
  intros Hok. cbn zeta.
  destruct (triggered o) eqn:Ht.
  - destruct (exec_triggered l o Ht) as (path & -> & Hm).
    rewrite run_pending, run_outbox, run_console.
    rewrite checkReload_timers, checkReload_sends, checkReload_logs, Hm.
    rewrite !length_app. cbn [andb map List.length].
    split; [lia|]. destruct log; cbn; lia.
  - destruct o as [dt | event path | n]; cbn [exec].
    + cbn. lia.
    + cbn [triggered] in Ht. rewrite emit_server.
      destruct (String.eqb event "add" || String.eqb event "change").
      * cbn [andb] in Ht.
        assert (Hc : checkReload path = []) by (unfold checkReload; now rewrite Ht).
        rewrite Hc. cbn. lia.
      * cbn. lia.
    + destruct (nth_error (pending l) n) as [t|] eqn:Hn; [|cbn; lia].
      destruct (Z.leb_spec (armed t + timer_wait (ms t)) (clock l)) as [Hdue|_];
        [|cbn; lia].
      destruct Hok as (Hts & _ & _).
      pose proof (proj1 (Forall_forall _ _) Hts t (nth_error_In _ _ Hn))
        as (_ & m & Hcb & _).
      rewrite Hcb. cbn. rewrite length_app. cbn.
      pose proof (length_remove_nth n _ _ Hn). lia.
Qed.

Lemma play_counts (history : list Occurrence) :
  forall l,
    loop_ok l ->
    List.length (pending (play server history l)) +
    List.length (outbox (play server history l)) =
      List.length (pending l) + List.length (outbox l) + triggers history
    /\ List.length (console (play server history l)) =
       List.length (console l) + (if log then triggers history else 0).
Proof.
  induction history as [|o h IH]; intros l Hok.
  - unfold triggers. cbn. destruct log; lia.
  - cbn [play fold_left].
    destruct (IH _ (loop_ok_exec l o Hok)) as [IH1 IH2].
    destruct (exec_counts l o Hok) as [E1 E2].
    fold (play server h (exec server l o)).
    unfold triggers in *. cbn [filter].
    destruct (triggered o), log; cbn [andb List.length] in *; lia.
Qed.

(** X6.  Nothing is lost and nothing is sent twice.  Over any history
    of the loop, the messages already out plus the timers still
    pending are as many as the triggered events of the history (no
    coalescing of repeated changes, no cancellation), and the log
    lines are as many when logging is on, none when it is off. *)
Theorem one_message_per_trigger (history : list Occurrence) :
  let l := play server history boot in
  List.length (pending l) + List.length (outbox l) = triggers history
  /\ List.length (console l) = if log then triggers history else 0.
Proof.
  cbn zeta.
  destruct (play_counts history boot loop_ok_boot) as [H1 H2].
  cbn in H1, H2. split; [lia | destruct log; lia].
Qed.







Lemma effects_deliveries (origin now : Z) (calls : list HostCall) :
  deliveries_of (effects_of origin now calls) =
  map (fun m => {| sent_at := now; caused_at := origin; payload := m |})
      (sends_of calls).
Proof.
  induction calls as [|c calls IH]; [reflexivity|].
  destruct c; cbn; [f_equal|..]; exact IH.
Qed.

Lemma effects_lines (origin now : Z) (calls : list HostCall) :
  lines_of (effects_of origin now calls) =
  map (fun x => {| logged_at := now; detected_at := origin;
                   line := fst x; line_options := snd x |})
      (logs_of calls).
Proof.
  induction calls as [|c calls IH]; [reflexivity|].
  destruct c; cbn; [|f_equal|]; exact IH.
Qed.

(** The transcript tells what the loop records: its messages are the
    outbox and its lines are the console, in the same order. *)
Lemma exec_step_effects (w : FSWatcher) (l : Loop) (o : Occurrence) :
  outbox (exec w l o) = (outbox l ++ deliveries_of (step_effects w l o))%list
  /\ console (exec w l o) = (console l ++ lines_of (step_effects w l o))%list.
Proof.
  destruct o as [dt | event path | n]; cbn [exec step_effects].
  - cbn. now rewrite !app_nil_r.
  - now rewrite run_outbox, run_console, effects_deliveries, effects_lines.
  - destruct (nth_error (pending l) n) as [t|]; [|cbn; now rewrite !app_nil_r].
    destruct (armed t + timer_wait (ms t) <=? clock l)%Z;
      [|cbn; now rewrite !app_nil_r].
    now rewrite run_outbox, run_console, effects_deliveries, effects_lines.
Qed.

Lemma play_transcript (w : FSWatcher) (history : list Occurrence) :
  forall l,
    outbox (play w history l) = (outbox l ++ deliveries_of (transcript w history l))%list
    /\ console (play w history l) = (console l ++ lines_of (transcript w history l))%list.
Proof.
  induction history as [|o history IH]; intro l.
  - cbn. now rewrite !app_nil_r.
  - cbn [play fold_left transcript]. fold (play w history (exec w l o)).
    destruct (IH (exec w l o)) as [IH1 IH2].
    destruct (exec_step_effects w l o) as [E1 E2].
    unfold deliveries_of, lines_of in *. rewrite !flat_map_app.
    rewrite IH1, IH2, E1, E2. now rewrite <- !app_assoc.
Qed.

Lemma checkReload_effects (origin now : Z) (path : string) :
  effects_of origin now (checkReload path) =
  if shouldReload path && log then
    [Logged {| logged_at := now; detected_at := origin;
               line := green "full reload" ++ " " ++ dim (relative root path);
               line_options := {| clear := true; timestamp := true |} |}]
  else [].
Proof.
  unfold checkReload.
  destruct (shouldReload path), turbo, log; reflexivity.
Qed.

Lemma announced_in_order_transcript (history : list Occurrence) :
  log = true ->
  forall seen l,
    loop_ok l ->
    Forall (fun t => exists x, In x seen /\ detected_at x = armed t) (pending l) ->
    announced_in_order seen (transcript server history l).
Proof.
  intro Hlog. induction history as [|o history IH]; intros seen l Hok Hann;
    [exact I|].
  cbn [transcript].
  pose proof (loop_ok_exec l o Hok) as Hok'.
  destruct o as [dt | event path | n]; cbn [step_effects].
  - cbn [app]. apply IH; [exact Hok' | exact Hann].
  - assert (Hp : pending (exec server l (Emit event path)) =
                 (pending l ++
                  map (fun t => {| callback := fst t; ms := snd t; armed := clock l |})
                      (timers_of (emit server event path)))%list)
      by (cbn [exec]; apply run_pending).
    revert Hp. rewrite emit_server.
    destruct (String.eqb event "add" || String.eqb event "change").
    + rewrite checkReload_effects, checkReload_timers, Hlog, andb_true_r.
      destruct (shouldReload path); cbn [map app]; intro Hp.
      * cbn [announced_in_order]. apply IH; [exact Hok'|].
        rewrite Hp. apply Forall_app. split.
        -- eapply Forall_impl; [|exact Hann].
           intros t (x & Hx & Hd). exists x. split; [now right | exact Hd].
        -- constructor; [|constructor]. eexists. split; [now left | reflexivity].
      * apply IH; [exact Hok'|]. rewrite Hp, app_nil_r. exact Hann.
    + cbn [map app effects_of flat_map]. intro Hp.
      apply IH; [exact Hok'|]. rewrite Hp, app_nil_r. exact Hann.
  - revert Hok'. cbn [exec].
    destruct (nth_error (pending l) n) as [t|] eqn:Hn;
      [|intro Hok'; cbn [app]; now apply IH].
    destruct (armed t + timer_wait (ms t) <=? clock l)%Z;
      [|intro Hok'; cbn [app]; now apply IH].
    pose proof (nth_error_In _ _ Hn) as Hin.
    destruct Hok as (Htok & _ & _).
    pose proof (proj1 (Forall_forall _ _) Htok t Hin) as (_ & m & Hcb & _).
    pose proof (proj1 (Forall_forall _ _) Hann t Hin) as Hline.
    rewrite Hcb. cbn [run fold_left perform effects_of flat_map app].
    cbn [clock pending outbox console]. intro Hok'.
    cbn [announced_in_order caused_at]. split; [exact Hline|].
    apply IH; [exact Hok'|]. cbn [pending].
    now apply Forall_remove_nth.
Qed.

(** X11.  With logging on, the log line comes before the message it
    announces.  Take the messages and log lines of any history in the
    order in which the host calls were made (they are the outbox and
    the console of the loop): every message is preceded by a log line
    for the event that caused it. *)
Theorem log_precedes_send (history : list Occurrence) :
  Config.log config <> Some false ->
  let effects := transcript server history boot in
  deliveries_of effects = outbox (play server history boot)
  /\ lines_of effects = console (play server history boot)
  /\ announced_in_order [] effects.
Proof.
  intros Hlog. cbn zeta.
  assert (Hl : log = true).
  { unfold log. destruct (Config.log config) as [[|]|]; cbn; congruence. }
  destruct (play_transcript server history boot) as [H1 H2].
  cbn [boot outbox console app] in H1, H2.
  repeat split; [now rewrite H1 | now rewrite H2 |].
  apply announced_in_order_transcript; [exact Hl | exact loop_ok_boot | constructor].
Qed.

End Instance.

(** *** The claims about the pattern set *)

(** C3.  For every root, a single pattern is normalised as the list
    holding it alone, and a list of patterns is normalised pattern by
    pattern: the result has the length of the input, and its entry at
    each index is the input's entry at that index, resolved against
    the root and then passed through [normalizePath].  So the order is
    kept and a repeated pattern stays repeated.  By the contracts of
    the two library functions ([resolve] returns an absolute path;
    [normalizePath] keeps an absolute path absolute and returns paths
    that it leaves unchanged), every entry of the result is absolute
    and separator-normalized, that is, a fixed point of
    [normalizePath]. *)
Theorem normalizePaths_elementwise (isAbsolute : string -> bool) (root : string) :
  (forall from to, isAbsolute (resolve from to) = true) ->
  (forall id, isAbsolute id = true -> isAbsolute (normalizePath id) = true) ->
  (forall id, normalizePath (normalizePath id) = normalizePath id) ->
  (forall p, normalizePaths root (OnePath p) = normalizePaths root (PathArray [p]))
  /\ (forall ps,
        List.length (normalizePaths root (PathArray ps)) = List.length ps
        /\ forall i,
            nth_error (normalizePaths root (PathArray ps)) i =
            option_map (fun p => normalizePath (resolve root p)) (nth_error ps i))
  /\ (forall path,
        Forall (fun x => isAbsolute x = true /\ normalizePath x = x)
               (normalizePaths root path)).
Proof.
  intros Hresolve Hkeep Hidem.
  split; [reflexivity|]. split.
  - intro ps. unfold normalizePaths. cbn [as_array]. split.
    + now rewrite !length_map.
    + intro i. rewrite !nth_error_map. now destruct (nth_error ps i).
  - intro path. unfold normalizePaths. rewrite map_map.
    apply Forall_forall. intros x Hin.
    apply in_map_iff in Hin as (p & <- & _). split.
    + apply Hkeep, Hresolve.
    + apply Hidem.
Qed.

Lemma nothing_watched_play (paths : Paths) (config : Config.t) :
  (forall path, shouldReload paths config path = false) ->
  forall history l,
    pending l = [] -> outbox l = [] -> console l = [] ->
    let l' := play (server paths config) history l in
    pending l' = [] /\ outbox l' = [] /\ console l' = [].
Proof.
  intros Hnone history.
  induction history as [|o history IH]; intros l Hp Ho Hc; cbn zeta.
  - now repeat split.
  - cbn [play fold_left].
    apply IH; destruct o as [dt | event path | n]; cbn [exec]; trivial;
      try (now rewrite (emit_rejected _ _ _ _ (Hnone path)));
      rewrite Hp; now destruct n.
Qed.

(** C10.  With the empty list of patterns the pattern set is empty,
    the bound predicate rejects every path, and over any history of
    the loop (any events, any passing of time) no timer is armed, no
    message goes out and no line is logged. *)
Theorem empty_patterns_never_trigger (config : Config.t) :
  files (PathArray []) config = []
  /\ (forall path, shouldReload (PathArray []) config path = false)
  /\ (forall history,
        let l := play (server (PathArray []) config) history boot in
        pending l = [] /\ outbox l = [] /\ console l = []).
Proof.
  repeat split; try reflexivity;
    now apply nothing_watched_play.
Qed.

(** *** Several patterns, several instances *)

(** X5.  Two instances of the plugin on one watcher do not disturb
    each other: both pattern sets are registered, and on [add] and
    [change] the handler of the first instance runs, then that of the
    second, each as it would alone; on any other event neither runs. *)
Theorem two_instances_coexist
        (paths1 paths2 : Paths) (config1 config2 : Config.t)
        (w : FSWatcher) (event path : string) :
  let w' := configureServer paths2 config2 (configureServer paths1 config1 w) in
  watched w' = (watched w ++ files paths1 config1 ++ files paths2 config2)%list
  /\ emit w' event path =
     (emit w event path ++
      if String.eqb event "add" || String.eqb event "change"
      then checkReload paths1 config1 path ++ checkReload paths2 config2 path
      else [])%list.
Proof.
  cbn zeta. split.
  - cbn. now rewrite <- app_assoc.
  - rewrite !emit_configureServer, <- app_assoc.
    now destruct (String.eqb event "add" || String.eqb event "change").
Qed.

(** X9.  Only the set of patterns matters to the handler: two lists
    holding the same patterns, in any order and with any repetitions,
    give the same host calls on every path. *)
Theorem same_patterns_same_handler
        (ps qs : list string) (config : Config.t) :
  (forall p, In p ps <-> In p qs) ->
  forall path,
    checkReload (PathArray ps) config path = checkReload (PathArray qs) config path.
Proof.
  intros Hsame path.
  assert (Hs : shouldReload (PathArray ps) config path =
               shouldReload (PathArray qs) config path).
  { apply eq_true_iff_eq. rewrite !shouldReload_exists. cbn [as_array].
    split; intros (p & Hin & Hm); exists p; (split; [now apply Hsame | exact Hm]). }
  unfold checkReload. now rewrite Hs.
Qed.

End Host.

(** ** The claims about the transform hook *)

Lemma prefix_append (s t : string) : prefix s (s ++ t) = true.
Proof.
  induction s as [|c s IH]; cbn; [now destruct t|].
  now destruct (ascii_dec c c).
Qed.

(** C7.  In an SSR context ([options.ssr] truthy) the hook returns
    nothing, so the module is left as it is, unless the [VITEST] flag
    of the environment is set (to a non-empty value): then it returns
    what it returns for the same module outside SSR. *)
Theorem transform_skipped_in_ssr
        (VITEST : option string) (config : Config.t) (code id : string)
        (options options' : option TransformOptions) :
  truthy_bool (options_ssr options) = true ->
  truthy_bool (options_ssr options') = false ->
  transform VITEST config code id options =
  if truthy_string VITEST then transform VITEST config code id options' else None.
Proof.
  intros Hssr Hplain. unfold transform. rewrite Hssr, Hplain.
  now destruct (truthy_string VITEST).
Qed.

(** C8.  A module the hook processes (not skipped for SSR): the hook
    returns a new content exactly when [turbo] is true and the id
    contains [hotwired_turbo-rails.js], and that content is the code it
    was given, unchanged, followed by a line break and one fixed
    snippet; the code is a prefix of it.  In every other case the hook
    returns nothing. *)
Theorem transform_appends_footer
        (VITEST : option string) (config : Config.t) (code id : string)
        (options : option TransformOptions) :
  truthy_bool (options_ssr options) && negb (truthy_string VITEST) = false ->
  let snippet :=
    nl ++ "if (import.meta.hot) {import.meta.hot.on(" ++ dq ++ "turbo-refresh" ++ dq
       ++ ", (data) => {console.log(" ++ dq
       ++ "Run <turbo-stream action=refresh> via vite-plugin-full-reload" ++ dq
       ++ ");Turbo.renderStreamMessage('<turbo-stream action=" ++ dq ++ "refresh" ++ dq
       ++ "></turbo-stream>');})}" in
  match transform VITEST config code id options with
  | Some content =>
      Config.turbo config = Some true
      /\ includes id "hotwired_turbo-rails.js" = true
      /\ content = code ++ snippet
      /\ prefix code content = true
  | None =>
      Config.turbo config <> Some true
      \/ includes id "hotwired_turbo-rails.js" = false
  end.
Proof.
  intros Hrun snippet. unfold transform. rewrite Hrun.
  destruct (Config.turbo config) as [[|]|]; cbn [truthy_bool andb];
    try (left; discriminate).
  destruct (includes id "hotwired_turbo-rails.js"); [|now right].
  repeat split. apply prefix_append.
Qed.

(** ** Further properties of the transform hook *)

Lemma prefix_split (a : string) :
  forall s, prefix a s = true -> exists post, s = a ++ post.
Proof.
  induction a as [|c a IH]; intros s H.
  - now exists s.
  - destruct s as [|d s]; cbn in H; [discriminate|].
    destruct (ascii_dec c d) as [->|]; [|discriminate].
    destruct (IH s H) as (post & ->). now exists post.
Qed.

Lemma prefix_refl (s : string) : prefix s s = true.
Proof.
  induction s as [|c s IH]; [reflexivity|].
  cbn. now destruct (ascii_dec c c).
Qed.

Lemma includes_refl (s : string) : includes s s = true.
Proof. destruct s as [|c s]; cbn [includes]; now rewrite prefix_refl. Qed.

(** [s.includes(search)] holds exactly when [search] occurs in [s]. *)
Lemma includes_occurs (s search : string) :
  includes s search = true <-> exists pre post, s = pre ++ search ++ post.
Proof.
  split.
  - induction s as [|c s IH]; cbn [includes]; intro H.
    + rewrite orb_false_r in H. destruct search; [|discriminate].
      now exists EmptyString, EmptyString.
    + apply orb_true_iff in H as [H|H].
      * destruct (prefix_split _ _ H) as (post & ->).
        now exists EmptyString, post.
      * destruct (IH H) as (pre & post & ->).
        now exists (String c pre), post.
  - intros (pre & post & ->).
    apply includes_app_r, includes_app_l, includes_refl.
Qed.

(** X1.  With turbo on and outside a skipped SSR pass, the hook
    rewrites a module exactly when the file name of the bundle occurs
    somewhere in its id: any directory before it and any suffix after
    it (a version query, say) are accepted. *)
Theorem transform_rewrites_bundle_ids
        (VITEST : option string) (config : Config.t) (code id : string)
        (options : option TransformOptions) :
  truthy_bool (options_ssr options) && negb (truthy_string VITEST) = false ->
  Config.turbo config = Some true ->
  (transform VITEST config code id options <> None
   <-> exists pre post, id = pre ++ "hotwired_turbo-rails.js" ++ post).
Proof.
  intros Hrun Hturbo. rewrite <- includes_occurs.
  unfold transform. rewrite Hrun, Hturbo. cbn [truthy_bool andb].
  destruct (includes id "hotwired_turbo-rails.js"); split; intro H;
    congruence.
Qed.

Lemma is_newline_space (c : ascii) : is_newline c = true -> is_space c = true.
Proof.
  unfold is_newline, is_space. intro H. apply Nat.eqb_eq in H. now rewrite H.
Qed.

Lemma replace_blank_runs_kept (d : ascii) (rest : string) :
  is_space d = false ->
  replace_blank_runs (String d rest) = String d (replace_blank_runs rest).
Proof.
  intro Hd. cbn [replace_blank_runs].
  destruct (is_newline d) eqn:Hn.
  - apply is_newline_space in Hn. congruence.
  - rewrite Hd. cbn [andb]. now destruct rest.
Qed.

Lemma blank_pair_cons (c : ascii) (s : string) :
  is_space c = false -> blank_pair (String c s) = blank_pair s.
Proof. intro Hc. cbn [blank_pair]. rewrite Hc. now destruct s. Qed.

Lemma blank_pair_step (c d : ascii) (s : string) :
  blank_pair (String c (String d s)) =
  (is_space c && is_space d) || blank_pair (String d s).
Proof. reflexivity. Qed.

Lemma replace_blank_runs_clean (n : nat) :
  forall s,
    String.length s <= n ->
    has_newline (replace_blank_runs s) = false
    /\ blank_pair (replace_blank_runs s) = false.
Proof.
  induction n as [|n IH]; intros [|c rest] Hlen; cbn [String.length] in Hlen;
    try (now split); try lia.
  cbn [replace_blank_runs].
  destruct (is_newline c) eqn:Hnl; [apply IH; lia|].
  destruct rest as [|d rest'].
  - cbn. now rewrite Hnl.
  - destruct (is_space c) eqn:Hc; cbn [andb].
    + destruct (is_space d) eqn:Hd.
      * apply IH. cbn [String.length] in Hlen. lia.
      * destruct (IH (String d rest')) as [H1 H2]; [lia|].
        rewrite replace_blank_runs_kept in * by exact Hd.
        split.
        -- cbn [has_newline] in *. rewrite Hnl. exact H1.
        -- rewrite blank_pair_step, Hd, andb_false_r. exact H2.
    + destruct (IH (String d rest')) as [H1 H2]; [lia|]. split.
      * cbn [has_newline]. rewrite Hnl. exact H1.
      * rewrite blank_pair_cons by exact Hc. exact H2.
Qed.

Lemma replace_blank_runs_fixed (s : string) :
  has_newline s = false -> blank_pair s = false -> replace_blank_runs s = s.
Proof.
  induction s as [|c rest IH]; [reflexivity|].
  intros Hn Hb. cbn [has_newline] in Hn.
  apply orb_false_iff in Hn as [Hc Hrest].
  cbn [replace_blank_runs]. rewrite Hc.
  destruct rest as [|d rest']; [reflexivity|].
  cbn [blank_pair] in Hb. apply orb_false_iff in Hb as [Hpair Hb].
  rewrite Hpair. f_equal. now apply IH.
Qed.

Lemma replace_blank_runs_ascii (n : nat) :
  forall s,
    String.length s <= n ->
    is_ascii_text s = true -> is_ascii_text (replace_blank_runs s) = true.
Proof.
  induction n as [|n IH]; intros [|c rest] Hlen Hs; cbn [String.length] in Hlen;
    try reflexivity; try lia.
  cbn [is_ascii_text] in Hs. apply andb_true_iff in Hs as [Hc Hrest].
  cbn [replace_blank_runs].
  destruct (is_newline c); [apply IH; [lia | exact Hrest]|].
  destruct rest as [|d rest'].
  - cbn [is_ascii_text]. now rewrite Hc.
  - destruct (is_space c && is_space d).
    + cbn [is_ascii_text] in Hrest. apply andb_true_iff in Hrest as [_ Hrest'].
      apply IH; [cbn [String.length] in Hlen; lia | exact Hrest'].
    + cbn [is_ascii_text]. rewrite Hc. cbn [andb].
      apply IH; [lia | exact Hrest].
Qed.

(** X2.  On every text of ASCII characters, what the replacement
    returns is again such a text and holds no line feed and no two
    whitespace characters side by side; so the snippet the hook
    appends is a single line however the template is laid out. *)
Theorem replace_blank_runs_one_line (s : string) :
  is_ascii_text s = true ->
  is_ascii_text (replace_blank_runs s) = true
  /\ has_newline (replace_blank_runs s) = false
  /\ blank_pair (replace_blank_runs s) = false.
Proof.
  intro Hs. split.
  - exact (replace_blank_runs_ascii (String.length s) s (le_n _) Hs).
  - exact (replace_blank_runs_clean (String.length s) s (le_n _)).
Qed.

(** X3.  On every text of ASCII characters, the replacement leaves the
    text alone when it holds no line feed and no two whitespace
    characters side by side, and applying the replacement a second
    time changes nothing. *)
Theorem replace_blank_runs_idempotent (s : string) :
  is_ascii_text s = true ->
  (has_newline s = false -> blank_pair s = false -> replace_blank_runs s = s)
  /\ replace_blank_runs (replace_blank_runs s) = replace_blank_runs s.
Proof.
  intros _. split; [apply replace_blank_runs_fixed|].
  destruct (replace_blank_runs_clean (String.length s) s (le_n _)) as [H1 H2].
  now apply replace_blank_runs_fixed.
Qed.

(** X10.  The server and the client agree on the event.  Whenever the
    handler arms a timer that sends a custom message, the snippet the
    hook appends to a module subscribes to the event of that message. *)
Theorem custom_event_has_listener
        (cwd : string) (resolve relative : string -> string -> string)
        (normalizePath green dim : string -> string)
        (isMatch : string -> string -> bool)
        (paths : Paths) (config : Config.t) (path : string)
        (event : string) (data : option string) (ms : Z)
        (VITEST : option string) (code id : string)
        (options : option TransformOptions) (content : string) :
  In (SetTimeout [WsSend (Custom event data)] ms)
     (checkReload cwd resolve relative normalizePath green dim isMatch
                  paths config path) ->
  transform VITEST config code id options = Some content ->
  includes content ("import.meta.hot.on(" ++ dq ++ event ++ dq) = true.
Proof.
  intros Hsent Hcontent.
  assert (Hev : event = "turbo-refresh").
  { unfold checkReload in Hsent.
    destruct (shouldReload _ _ _ _ _ _ _); [|contradiction].
    destruct (turbo config), (log config); cbn in Hsent;
      repeat (destruct Hsent as [Hsent|Hsent]; try contradiction);
      congruence. }
  subst event. unfold transform in Hcontent.
  destruct (_ && _); [discriminate|].
  destruct (_ && _); [|discriminate].
  injection Hcontent as <-.
  apply includes_app_r, (includes_app_r _ nl metaHotFooter).
  vm_compute. reflexivity.
Qed.

(** ** The plugin on concrete inputs *)

Example metaHotFooter_text :
  metaHotFooter =
  "if (import.meta.hot) {import.meta.hot.on(" ++ dq ++ "turbo-refresh" ++ dq
    ++ ", (data) => {console.log(" ++ dq
    ++ "Run <turbo-stream action=refresh> via vite-plugin-full-reload" ++ dq
    ++ ");Turbo.renderStreamMessage('<turbo-stream action=" ++ dq ++ "refresh" ++ dq
    ++ "></turbo-stream>');})}".
Proof. reflexivity. Qed.

Example blank_runs_odd : replace_blank_runs "a   b" = "a b".
Proof. reflexivity. Qed.

(** An empty [VITEST] is falsy: the hook is still skipped for SSR. *)
Example transform_ssr_empty_flag :
  transform (Some EmptyString) Fake.turbo_config "export {}"
            "/deps/@hotwired_turbo-rails.js" (Some {| ssr := Some true |}) = None.
Proof. reflexivity. Qed.

Example transform_other_module :
  transform None Fake.turbo_config "export {}" "/src/main.js" None = None.
Proof. reflexivity. Qed.

Example normalizePaths_keeps_duplicates :
  normalizePaths Fake.resolve Fake.normalizePath "/proj"
                 (PathArray ["b.css"; "a.css"; "/abs/c.css"; "a.css"]) =
  ["/proj/b.css"; "/proj/a.css"; "/abs/c.css"; "/proj/a.css"].
Proof. reflexivity. Qed.

(** Root [/app], the defaults otherwise; [add] of a watched file. *)
Example scenario_watched_file :
  emit (server Fake.cwd Fake.resolve Fake.relative Fake.normalizePath
               Fake.green Fake.dim Fake.isMatch Fake.templates Fake.app_config)
       "add" "/app/templates/index.html" =
  [SetTimeout [WsSend (FullReload "*")] 0;
   LoggerInfo "full reload templates/index.html" {| clear := true; timestamp := true |}].
Proof. reflexivity. Qed.

Example scenario_other_file :
  emit (server Fake.cwd Fake.resolve Fake.relative Fake.normalizePath
               Fake.green Fake.dim Fake.isMatch Fake.templates Fake.app_config)
       "change" "/app/src/main.js" = [].
Proof. reflexivity. Qed.

(** The plugin does not listen to [unlink]. *)
Example scenario_unlink :
  emit (server Fake.cwd Fake.resolve Fake.relative Fake.normalizePath
               Fake.green Fake.dim Fake.isMatch Fake.templates Fake.app_config)
       "unlink" "/app/templates/index.html" = [].
Proof. reflexivity. Qed.

(** Two changes 150 ms apart with a delay of 200 ms: a timer asked to
    run early stays pending, and each message goes out once its own
    delay has passed. *)
Example scenario_two_changes :
  play (server Fake.cwd Fake.resolve Fake.relative Fake.normalizePath
               Fake.green Fake.dim Fake.isMatch Fake.templates Fake.quiet_config)
       [Emit "change" "/app/templates/index.html"; Fire 0; Tick 150;
        Emit "change" "/app/templates/index.html"; Tick 50; Fire 0; Fire 0;
        Tick 150; Fire 0]
       boot =
  {| clock := 350;
     pending := [];
     outbox := [{| sent_at := 200; caused_at := 0;
                   payload := FullReload "/app/templates/index.html" |};
                {| sent_at := 350; caused_at := 150;
                   payload := FullReload "/app/templates/index.html" |}];
     console := [] |}.
Proof. reflexivity. Qed.

(** ** The theorems at work on the test doubles *)

Set Warnings "-notation-for-abbreviation".

Local Notation fake_shouldReload :=
  (shouldReload Fake.cwd Fake.resolve Fake.normalizePath Fake.isMatch).
Local Notation fake_checkReload :=
  (checkReload Fake.cwd Fake.resolve Fake.relative Fake.normalizePath
               Fake.green Fake.dim Fake.isMatch).
Local Notation fake_server :=
  (server Fake.cwd Fake.resolve Fake.relative Fake.normalizePath
          Fake.green Fake.dim Fake.isMatch).

Lemma full_reload_path_field_witness :
  ("add" = "add" \/ "add" = "change")
  /\ fake_shouldReload Fake.templates Fake.quiet_config "/app/templates/index.html" = true
  /\ Config.turbo Fake.quiet_config <> Some true
  /\ timers_of (emit (fake_server Fake.templates Fake.quiet_config)
                     "add" "/app/templates/index.html") =
     [([WsSend (FullReload "/app/templates/index.html")], 200%Z)]
  /\ sends_of (emit (fake_server Fake.templates Fake.quiet_config)
                    "add" "/app/templates/index.html") = [].
Proof.
  assert (Hev : "add" = "add" \/ "add" = "change") by (left; reflexivity).
  assert (Hturbo : Config.turbo Fake.quiet_config <> Some true) by discriminate.
  exact (conj Hev (conj eq_refl (conj Hturbo
           (full_reload_path_field Fake.cwd Fake.resolve Fake.relative
              Fake.normalizePath Fake.green Fake.dim Fake.isMatch
              Fake.templates Fake.quiet_config "add" "/app/templates/index.html"
              Hev eq_refl Hturbo)))).
Defined.

Lemma turbo_sends_custom_refresh_witness :
  Config.turbo Fake.turbo_config = Some true
  /\ timers_of (emit (fake_server Fake.templates Fake.turbo_config)
                     "change" "/app/templates/index.html") =
     [([WsSend (Custom "turbo-refresh" None)], 200%Z)]
  /\ Forall (fun d => payload d = Custom "turbo-refresh" None)
            (outbox (play (fake_server Fake.templates Fake.turbo_config)
                          [Emit "change" "/app/templates/index.html"; Tick 250; Fire 0]
                          boot)).
Proof.
  pose proof (turbo_sends_custom_refresh Fake.cwd Fake.resolve Fake.relative
                Fake.normalizePath Fake.green Fake.dim Fake.isMatch
                Fake.templates Fake.turbo_config eq_refl) as [Hevent Hever].
  split; [reflexivity|]. split.
  - exact (proj1 (Hevent "change" "/app/templates/index.html"
                         (or_intror eq_refl) eq_refl)).
  - apply Hever.
Defined.

Lemma rejected_path_no_action_witness :
  fake_shouldReload Fake.templates Fake.app_config "/app/src/main.js" = false
  /\ fake_checkReload Fake.templates Fake.app_config "/app/src/main.js" = []
  /\ emit (fake_server Fake.templates Fake.app_config) "change" "/app/src/main.js" = []
  /\ forall l, exec (fake_server Fake.templates Fake.app_config) l
                    (Emit "change" "/app/src/main.js") = l.
Proof.
  split; [reflexivity|].
  exact (rejected_path_no_action Fake.cwd Fake.resolve Fake.relative
           Fake.normalizePath Fake.green Fake.dim Fake.isMatch
           Fake.templates Fake.app_config "change" "/app/src/main.js" eq_refl).
Defined.

Lemma send_delayed_log_immediate_witness :
  ("change" = "add" \/ "change" = "change")
  /\ fake_shouldReload Fake.templates Fake.turbo_config "/app/templates/index.html" = true
  /\ (with_default 0 (Config.delay Fake.turbo_config) <= TIMEOUT_MAX)%Z
  /\ pending (exec (fake_server Fake.templates Fake.turbo_config) boot
                   (Emit "change" "/app/templates/index.html")) =
     [{| callback := [WsSend (Custom "turbo-refresh" None)]; ms := 200; armed := 0 |}]
  /\ Forall (fun x => logged_at x = 0%Z)
            (console (exec (fake_server Fake.templates Fake.turbo_config) boot
                           (Emit "change" "/app/templates/index.html")))
  /\ Forall (fun d => (caused_at d + 200 <= sent_at d)%Z)
            (outbox (play (fake_server Fake.templates Fake.turbo_config)
                          [Emit "change" "/app/templates/index.html"; Tick 250; Fire 0]
                          boot)).
Proof.
  assert (Hev : "change" = "add" \/ "change" = "change") by (right; reflexivity).
  assert (Hmax : (with_default 0 (Config.delay Fake.turbo_config) <= TIMEOUT_MAX)%Z)
    by (intro H; discriminate H).
  pose proof (send_delayed_log_immediate Fake.cwd Fake.resolve Fake.relative
                Fake.normalizePath Fake.green Fake.dim Fake.isMatch
                Fake.templates Fake.turbo_config
                "change" "/app/templates/index.html" Hev eq_refl)
    as (Hnow & _ & Hlate).
  split; [exact Hev|]. split; [reflexivity|]. split; [exact Hmax|].
  destruct (Hnow boot) as (_ & Htimer & _ & Hline & _).
  split; [exact Htimer|]. split; [exact Hline|].
  exact (Hlate Hmax [Emit "change" "/app/templates/index.html"; Tick 250; Fire 0]).
Defined.

(** With a delay of 2^31 ms the timer waits 1 ms: the message of an
    event detected at 0 goes out at 1, long before the delay. *)
Lemma send_delayed_log_immediate_counterexample :
  ("change" = "add" \/ "change" = "change")
  /\ fake_shouldReload Fake.templates Fake.overflow_config "/app/templates/index.html" = true
  /\ outbox (play (fake_server Fake.templates Fake.overflow_config)
                  [Emit "change" "/app/templates/index.html"; Tick 1; Fire 0] boot) =
     [{| sent_at := 1; caused_at := 0; payload := FullReload "*" |}]
  /\ ~ Forall (fun d => (caused_at d + with_default 0 (Config.delay Fake.overflow_config)
                         <= sent_at d)%Z)
              (outbox (play (fake_server Fake.templates Fake.overflow_config)
                            [Emit "change" "/app/templates/index.html"; Tick 1; Fire 0]
                            boot)).
Proof.
  split; [right; reflexivity|]. split; [reflexivity|]. split; [reflexivity|].
  intro H. inversion H as [|d ds Hd _]; subst.
  cbn in Hd. lia.
Qed.

Lemma log_line_on_trigger_witness :
  ("add" = "add" \/ "add" = "change")
  /\ fake_shouldReload Fake.templates Fake.app_config "/app/templates/index.html" = true
  /\ includes (Fake.green "full reload") "full reload" = true
  /\ includes (Fake.dim (Fake.relative "/app" "/app/templates/index.html"))
              (Fake.relative "/app" "/app/templates/index.html") = true
  /\ logs_of (emit (fake_server Fake.templates Fake.app_config)
                   "add" "/app/templates/index.html") =
     [("full reload templates/index.html", {| clear := true; timestamp := true |})]
  /\ includes "full reload templates/index.html" "full reload" = true
  /\ includes "full reload templates/index.html" "templates/index.html" = true
  /\ timers_of (emit (fake_server Fake.templates Fake.app_config)
                     "add" "/app/templates/index.html") =
     [([WsSend (FullReload "*")], 0%Z)].
Proof.
  assert (Hev : "add" = "add" \/ "add" = "change") by (left; reflexivity).
  split; [exact Hev|]. do 3 (split; [reflexivity|]).
  exact (log_line_on_trigger Fake.cwd Fake.resolve Fake.relative
           Fake.normalizePath Fake.green Fake.dim Fake.isMatch
           Fake.templates Fake.app_config "add" "/app/templates/index.html"
           Hev eq_refl eq_refl eq_refl).
Defined.

Lemma transform_skipped_in_ssr_witness :
  truthy_bool (options_ssr (Some {| ssr := Some true |})) = true
  /\ truthy_bool (options_ssr None) = false
  /\ transform (Some "true") Fake.turbo_config "export {}"
               "/deps/@hotwired_turbo-rails.js" (Some {| ssr := Some true |}) =
     transform (Some "true") Fake.turbo_config "export {}"
               "/deps/@hotwired_turbo-rails.js" None
  /\ transform None Fake.turbo_config "export {}"
               "/deps/@hotwired_turbo-rails.js" (Some {| ssr := Some true |}) = None.
Proof.
  do 2 (split; [reflexivity|]). split.
  - exact (transform_skipped_in_ssr (Some "true") Fake.turbo_config "export {}"
             "/deps/@hotwired_turbo-rails.js" (Some {| ssr := Some true |}) None
             eq_refl eq_refl).
  - exact (transform_skipped_in_ssr None Fake.turbo_config "export {}"
             "/deps/@hotwired_turbo-rails.js" (Some {| ssr := Some true |}) None
             eq_refl eq_refl).
Defined.

Lemma transform_appends_footer_witness :
  truthy_bool (options_ssr None) && negb (truthy_string None) = false
  /\ Config.turbo Fake.turbo_config = Some true
  /\ includes "/deps/@hotwired_turbo-rails.js" "hotwired_turbo-rails.js" = true
  /\ "export {}" ++ nl ++ metaHotFooter
     = "export {}" ++ nl ++ "if (import.meta.hot) {import.meta.hot.on(" ++ dq
       ++ "turbo-refresh" ++ dq ++ ", (data) => {console.log(" ++ dq
       ++ "Run <turbo-stream action=refresh> via vite-plugin-full-reload" ++ dq
       ++ ");Turbo.renderStreamMessage('<turbo-stream action=" ++ dq ++ "refresh" ++ dq
       ++ "></turbo-stream>');})}"
  /\ prefix "export {}" ("export {}" ++ nl ++ metaHotFooter) = true.
Proof.
  split; [reflexivity|].
  exact (transform_appends_footer None Fake.turbo_config "export {}"
           "/deps/@hotwired_turbo-rails.js" None eq_refl).
Defined.

Lemma transform_rewrites_bundle_ids_witness :
  truthy_bool (options_ssr None) && negb (truthy_string None) = false
  /\ Config.turbo Fake.turbo_config = Some true
  /\ transform None Fake.turbo_config "export {}"
               "/deps/@hotwired_turbo-rails.js?v=1a2b" None <> None.
Proof.
  do 2 (split; [reflexivity|]).
  apply (proj2 (transform_rewrites_bundle_ids None Fake.turbo_config "export {}"
                  "/deps/@hotwired_turbo-rails.js?v=1a2b" None eq_refl eq_refl)).
  exists "/deps/@", "?v=1a2b". reflexivity.
Defined.

Lemma same_patterns_same_handler_witness :
  (forall p, In p ["a.css"; "b.css"] <-> In p ["b.css"; "a.css"; "a.css"])
  /\ fake_checkReload (PathArray ["a.css"; "b.css"]) Fake.app_config "/app/a.css" =
     fake_checkReload (PathArray ["b.css"; "a.css"; "a.css"]) Fake.app_config "/app/a.css".
Proof.
  assert (H : forall p, In p ["a.css"; "b.css"] <-> In p ["b.css"; "a.css"; "a.css"])
    by (intro p; cbn; tauto).
  exact (conj H (same_patterns_same_handler Fake.cwd Fake.resolve Fake.relative
                   Fake.normalizePath Fake.green Fake.dim Fake.isMatch
                   _ _ Fake.app_config H "/app/a.css")).
Defined.

Lemma custom_event_has_listener_witness :
  In (SetTimeout [WsSend (Custom "turbo-refresh" None)] 200%Z)
     (fake_checkReload Fake.templates Fake.turbo_config "/app/templates/index.html")
  /\ transform None Fake.turbo_config "export {}" "/deps/@hotwired_turbo-rails.js" None =
     Some ("export {}" ++ nl ++ metaHotFooter)
  /\ includes ("export {}" ++ nl ++ metaHotFooter)
              ("import.meta.hot.on(" ++ dq ++ "turbo-refresh" ++ dq) = true.
Proof.
  assert (H : In (SetTimeout [WsSend (Custom "turbo-refresh" None)] 200%Z)
                 (fake_checkReload Fake.templates Fake.turbo_config
                                   "/app/templates/index.html"))
    by (left; reflexivity).
  exact (conj H (conj eq_refl
           (custom_event_has_listener Fake.cwd Fake.resolve Fake.relative
              Fake.normalizePath Fake.green Fake.dim Fake.isMatch
              Fake.templates Fake.turbo_config "/app/templates/index.html"
              "turbo-refresh" None 200%Z None "export {}"
              "/deps/@hotwired_turbo-rails.js" None _ H eq_refl))).
Defined.

Lemma resolve_cwd_absolute (from to : string) :
  Fake.isAbsolute (Fake.resolve_cwd from to) = true.
Proof.
  unfold Fake.isAbsolute, Fake.resolve_cwd.
  destruct (prefix "/" to) eqn:Hto; [exact Hto|].
  destruct (prefix "/" from) eqn:Hfrom; [|reflexivity].
  now apply prefix_app.
Qed.

Lemma slash_absolute (id : string) :
  Fake.isAbsolute id = true -> Fake.isAbsolute (Fake.slash id) = true.
Proof.
  unfold Fake.isAbsolute. intro H.
  destruct (prefix_split _ _ H) as (post & ->).
  cbn. apply prefix_nil.
Qed.

Lemma slash_idempotent (id : string) :
  Fake.slash (Fake.slash id) = Fake.slash id.
Proof.
  induction id as [|c rest IH]; [reflexivity|].
  cbn. rewrite IH. f_equal.
  destruct (Ascii.eqb c "092") eqn:Hc; [reflexivity | now rewrite Hc].
Qed.

Lemma normalizePaths_elementwise_witness :
  (forall from to, Fake.isAbsolute (Fake.resolve_cwd from to) = true)
  /\ (forall id, Fake.isAbsolute id = true -> Fake.isAbsolute (Fake.slash id) = true)
  /\ (forall id, Fake.slash (Fake.slash id) = Fake.slash id)
  /\ nth_error (normalizePaths Fake.resolve_cwd Fake.slash "proj"
                               (PathArray ["b.css"; "win" ++ String "092" "a.css";
                                           "/abs/c.css"; "b.css"])) 1 =
     Some "/cwd/proj/win/a.css"
  /\ Forall (fun x => Fake.isAbsolute x = true /\ Fake.slash x = x)
            (normalizePaths Fake.resolve_cwd Fake.slash "proj"
                            (PathArray ["b.css"; "win" ++ String "092" "a.css";
                                        "/abs/c.css"; "b.css"])).
Proof.
  pose proof (normalizePaths_elementwise Fake.resolve_cwd Fake.slash
                Fake.isAbsolute "proj"
                resolve_cwd_absolute slash_absolute slash_idempotent)
    as (_ & Hlist & Hall).
  split; [exact resolve_cwd_absolute|].
  split; [exact slash_absolute|].
  split; [exact slash_idempotent|].
  split.
  - exact (proj2 (Hlist ["b.css"; "win" ++ String "092" "a.css"; "/abs/c.css"; "b.css"]) 1).
  - apply Hall.
Defined.

Lemma replace_blank_runs_one_line_witness :
  is_ascii_text metaHotTemplate = true
  /\ is_ascii_text (replace_blank_runs metaHotTemplate) = true
  /\ has_newline (replace_blank_runs metaHotTemplate) = false
  /\ blank_pair (replace_blank_runs metaHotTemplate) = false.
Proof.
  split; [reflexivity|].
  exact (replace_blank_runs_one_line metaHotTemplate eq_refl).
Defined.

Lemma replace_blank_runs_idempotent_witness :
  is_ascii_text metaHotTemplate = true
  /\ replace_blank_runs (replace_blank_runs metaHotTemplate) =
     replace_blank_runs metaHotTemplate.
Proof.
  split; [reflexivity|].
  exact (proj2 (replace_blank_runs_idempotent metaHotTemplate eq_refl)).
Defined.

Lemma log_precedes_send_witness :
  Config.log Fake.turbo_config <> Some false
  /\ transcript (fake_server Fake.templates Fake.turbo_config)
                [Emit "change" "/app/templates/index.html"; Tick 250; Fire 0] boot =
     [Logged {| logged_at := 0; detected_at := 0;
                line := "full reload templates/index.html";
                line_options := {| clear := true; timestamp := true |} |};
      Sent {| sent_at := 250; caused_at := 0;
              payload := Custom "turbo-refresh" None |}]
  /\ announced_in_order
       []
       (transcript (fake_server Fake.templates Fake.turbo_config)
                   [Emit "change" "/app/templates/index.html"; Tick 250; Fire 0] boot).
Proof.
  assert (H : Config.log Fake.turbo_config <> Some false) by discriminate.
  split; [exact H|]. split; [reflexivity|].
  exact (proj2 (proj2 (log_precedes_send Fake.cwd Fake.resolve Fake.relative
                         Fake.normalizePath Fake.green Fake.dim Fake.isMatch
                         Fake.templates Fake.turbo_config
                         [Emit "change" "/app/templates/index.html"; Tick 250; Fire 0]
                         H))).
Defined.
